(** * awsflow.workflow_types

    A shallow embedding of [lib/awsflow/workflow_types.py]: the three
    flow-type descriptors ([WorkflowType], [ActivityType], [SignalType]),
    their option maps and their context-dependent call operators.

    Conventions of the embedding.
    - Python values that the descriptors store or pass on are [pyval]
      ([None], integers, strings); dictionaries are [gmap string _].
    - A method that may raise returns an [outcome]; a method that hands
      work to the worker or the decider returns a [prog]: a finite tree
      whose nodes are the delegated operations, each with the continuation
      that receives the collaborator's reply.  The collaborators themselves
      (worker, decider) are not part of this module; the embedding records
      which operation is requested with which arguments, and the
      continuation says what is done with any reply.
    - The ambient execution context ([get_context()]) is an explicit
      argument [ambient : option Context]. *)

From Stdlib Require Import ZArith String DecimalString.
From stdpp Require Import gmap strings.

Local Open Scope string_scope.

(** ** Python values *)

Inductive pyval : Type :=
| PNone
| PInt (z : Z)
| PStr (s : string).

#[global] Instance pyval_eq_dec : EqDecision pyval.
Proof. solve_decision. Defined.

#[global] Instance pyval_inhabited : Inhabited pyval := populate PNone.

(** [str(v)], which is also what ["%s" % v] and ["{0}".format(v)] render. *)
Definition str (v : pyval) : string :=
  match v with
  | PNone => "None"
  | PInt z => NilZero.string_of_int (Z.to_int z)
  | PStr s => s
  end.

(** [v is None] *)
Definition is_None (v : pyval) : bool :=
  match v with
  | PNone => true
  | _ => false
  end.

(** A value stored in a decision or registration map: a plain value or a
    one-level nested map such as [{'name': ...}]. *)
Inductive dval : Type :=
| Val (v : pyval)
| Dict (d : gmap string pyval).

(** [d.update(other)]: the entries of [other] win on a key collision. *)
Definition update {V : Type} (d other : gmap string V) : gmap string V :=
  other ∪ d.

(** Positional and keyword arguments of a call, the list [[args, kwargs]]. *)
Definition payload : Type := list pyval * gmap string pyval.

(** Anything with a [__name__]: a class or a function. *)
Record named : Type := { __name__ : string }.

(** A reference to an object compared by identity; [None] is Python's
    [None]. *)
Definition ref : Type := option nat.

(** An object handed back by a collaborator (a future, for instance);
    this module only passes it on. *)
Inductive object : Type := Object (id : nat).

(** ** Exceptions and effects *)

(** The exception classes this module raises.  [AttributeError] carries the
    attribute whose lookup failed. *)
Inductive exn : Type :=
| TypeError
| AttributeError (attr : string)
| NotImplementedError
| RuntimeError.

#[global] Instance exn_eq_dec : EqDecision exn.
Proof. solve_decision. Defined.

Inductive outcome (A : Type) : Type :=
| Return (a : A)
| Raise (e : exn).
Arguments Return {A} a.
Arguments Raise {A} e.

#[global] Instance outcome_ret : MRet outcome := fun A a => Return a.
#[global] Instance outcome_bind : MBind outcome := fun A B f m =>
  match m with
  | Return a => f a
  | Raise e => Raise e
  end.

(** A computation over the delegated operations [E]: it ends in an outcome,
    or requests [op : E X] from a collaborator and continues with the
    reply. *)
Inductive prog (E : Type -> Type) (A : Type) : Type :=
| Done (r : outcome A)
| Call {X : Type} (op : E X) (k : X -> prog E A).
Arguments Done {E A} r.
Arguments Call {E A X} op k.

Fixpoint prog_bind {E : Type -> Type} {A B : Type}
    (f : A -> prog E B) (m : prog E A) : prog E B :=
  match m with
  | Done (Return a) => f a
  | Done (Raise e) => Done (Raise e)
  | Call op k => Call op (fun x => prog_bind f (k x))
  end.

#[global] Instance prog_ret {E} : MRet (prog E) := fun A a => Done (Return a).
#[global] Instance prog_mbind {E} : MBind (prog E) := fun A B f m => prog_bind f m.

Definition raise {E A} (e : exn) : prog E A := Done (Raise e).
Definition call {E X} (op : E X) : prog E X := Call op (fun x => Done (Return x)).

(** A computation that delegates at most one operation: it ends at once,
    or it ends right after the reply to its first request. *)
Definition at_most_one_call {E : Type -> Type} {A : Type}
    (m : prog E A) : Prop :=
  match m with
  | Done _ => True
  | Call _ k => forall x, exists r, k x = Done r
  end.

(** ** Imported names *)

(** [data_converter.AbstractDataConverter]: the serialization strategy.
    Only [dumps] is used by this module. *)
Record AbstractDataConverter : Type := { dumps : payload -> string }.

(** An object passed where a converter is expected: a converter instance,
    or some other value ([Other PNone] is [None]). *)
Inductive pyobject : Type :=
| Converter (c : AbstractDataConverter)
| Other (v : pyval).

(** [obj.dumps(input)] on an arbitrary object. *)
Definition call_dumps (obj : pyobject) (input : payload) : outcome string :=
  match obj with
  | Converter c => Return (dumps c input)
  | Other _ => Raise (AttributeError "dumps")
  end.

(** The names imported from [constants] and [data_converter], whose
    definitions are outside this module, and the marker that
    [utils.str_or_NONE] renders [None] as. *)
Class Imports : Type := {
  USE_WORKER_TASK_LIST : pyval;
  CHILD_TERMINATE : pyval;
  NONE : string;
  JSONDataConverter : AbstractDataConverter;
}.

(** Modelled from the spec: [utils.str_or_NONE] is imported from a module
    outside the source tree.  A null value renders as the explicit marker
    string, any other value as its string form. *)
Definition str_or_NONE `{Imports} (value : pyval) : string :=
  match value with
  | PNone => NONE
  | _ => str value
  end.

Module WorkflowExecution.
(** [workflow_execution.WorkflowExecution]: the pair identifying one
    remote execution. *)
Record t : Type := { workflow_id : pyval; run_id : pyval }.
End WorkflowExecution.

(** Modelled from the spec: the [context] module is outside the source
    tree.  The active context is one of three variants.  A Start context
    holds the worker and the per-call workflow option overrides; a Decision
    context holds the decider, a reference to the currently executing
    workflow instance and both override maps; an Activity context holds the
    worker.  [get_context] fails with [AttributeError] when no context is
    active. *)
Module context.
Record Worker : Type := { domain : pyval }.

Record Decider : Type := {
  execution_started : bool;
  task_list : pyval;
}.

Inductive Context : Type :=
| StartWorkflowContext (worker : Worker)
    (_workflow_options_overrides : gmap string dval)
| DecisionContext (decider : Decider) (workflow : ref)
    (_workflow_options_overrides : gmap string dval)
    (_activity_options_overrides : gmap string dval)
| ActivityContext (worker : Worker).

Definition get_context (ambient : option Context) : outcome Context :=
  match ambient with
  | Some c => Return c
  | None => Raise (AttributeError "context")
  end.

(** [context._workflow_options_overrides] *)
Definition _workflow_options_overrides (c : Context)
    : outcome (gmap string dval) :=
  match c with
  | StartWorkflowContext _ o => Return o
  | DecisionContext _ _ o _ => Return o
  | ActivityContext _ => Raise (AttributeError "_workflow_options_overrides")
  end.
(** [isinstance(context, DecisionContext)], where no context is [None]. *)
Definition is_DecisionContext (ambient : option Context) : bool :=
  match ambient with
  | Some (DecisionContext _ _ _ _) => true
  | _ => false
  end.

End context.
Import context.

(** ** WorkflowType *)

Module WorkflowType.

Record t : Type := {
  version : pyval;
  name : pyval;
  task_list : pyval;
  child_policy : pyval;
  execution_start_to_close_timeout : pyval;
  task_start_to_close_timeout : pyval;
  description : pyval;
  skip_registration : bool;
  workflow_id : pyval;
  _data_converter : AbstractDataConverter;
}.

(** The handle [_class(WorkflowExecution(workflow_id, run_id))] with its
    [_data_converter] assigned. *)
Record instance : Type := {
  __class__ : named;
  workflow_execution : WorkflowExecution.t;
  instance_data_converter : AbstractDataConverter;
}.

(** The operations [__call__] delegates to the worker or the decider. *)
Inductive op : Type -> Type :=
| _start_workflow_execution (worker : Worker) (self : t)
    (args : list pyval) (kwargs : gmap string pyval) : op (pyval * pyval)
| _continue_as_new_workflow_execution (decider : Decider)
    (kwargs : gmap string dval) : op object
| _handle_start_child_workflow_execution (decider : Decider) (self : t)
    (workflow_instance : instance) (input : payload) : op object.

(** What [__call__] returns. *)
Inductive returned : Type :=
| returned_None
| returned_instance (workflow_instance : instance)
| returned_object (o : object).

Definition _continue_as_new_keys : list string :=
  ["task_start_to_close_timeout"; "child_policy";
   "task_list"; "execution_start_to_close_timeout";
   "version"; "input"].

Section methods.
Context `{Imports}.

(** The [data_converter] property: the getter, and the value the setter
    stores in [_data_converter]. *)
Definition data_converter (self : t) : AbstractDataConverter :=
  _data_converter self.

Definition data_converter_setter (converter : pyobject)
    : outcome AbstractDataConverter :=
  match converter with
  | Other PNone => Return JSONDataConverter
  | Converter c => Return c
  | Other _ => Raise TypeError
  end.

Definition set_data_converter (self : t) (converter : pyobject)
    : outcome t :=
  c ← data_converter_setter converter;
  mret {| version := version self;
          name := name self;
          task_list := task_list self;
          child_policy := child_policy self;
          execution_start_to_close_timeout :=
            execution_start_to_close_timeout self;
          task_start_to_close_timeout := task_start_to_close_timeout self;
          description := description self;
          skip_registration := skip_registration self;
          workflow_id := workflow_id self;
          _data_converter := c |}.

Definition __init__
    (version execution_start_to_close_timeout : pyval)
    (task_list task_start_to_close_timeout child_policy : pyval)
    (description name : pyval)
    (data_converter : pyobject)
    (skip_registration : bool) : outcome t :=
  c ← data_converter_setter data_converter;
  mret {| version := version;
          name := name;
          task_list := task_list;
          child_policy := child_policy;
          execution_start_to_close_timeout :=
            execution_start_to_close_timeout;
          task_start_to_close_timeout := task_start_to_close_timeout;
          description := description;
          skip_registration := skip_registration;
          workflow_id := PNone;
          _data_converter := c |}.

(** [WorkflowType(version, execution_start_to_close_timeout)] with
    every keyword argument at its default. *)
Definition __init__defaults
    (version execution_start_to_close_timeout : pyval) : outcome t :=
  __init__ version execution_start_to_close_timeout
    USE_WORKER_TASK_LIST (PInt 30) CHILD_TERMINATE
    (PStr "") PNone (Other PNone) false.

Definition to_decision_dict (self : t) (input : payload)
    (workflow_id worker_task_list domain : pyval)
    (ambient : option Context) : outcome (gmap string dval) :=
  let task_list :=
    if decide (task_list self = USE_WORKER_TASK_LIST)
    then worker_task_list
    else task_list self in
  let serialized_input := dumps (data_converter self) input in
  let decision_dict : gmap string dval :=
    <["workflow_type" :=
        Dict (<["version" := version self]>
                (<["name" := name self]> ∅))]>
    (<["task_list" := Dict {["name" := PStr (str_or_NONE task_list)]}]>
    (<["child_policy" := Val (PStr (str_or_NONE (child_policy self)))]>
    (<["execution_start_to_close_timeout" :=
        Val (PStr (str_or_NONE (execution_start_to_close_timeout self)))]>
    (<["task_start_to_close_timeout" :=
        Val (PStr (str_or_NONE (task_start_to_close_timeout self)))]>
    (<["input" := Val (PStr serialized_input)]> ∅))))) in
  (* for child workflows *)
  let decision_dict :=
    if negb (is_None workflow_id) && is_None (WorkflowType.workflow_id self)
    then <["workflow_id" := Val workflow_id]> decision_dict
    else decision_dict in
  let decision_dict :=
    if negb (is_None domain)
    then <["domain" := Val domain]> decision_dict
    else decision_dict in
  (* apply any overrides *)
  context ← get_context ambient;
  overrides ← _workflow_options_overrides context;
  let _decision_dict : gmap string dval := ∅ in
  let _decision_dict := update _decision_dict decision_dict in
  let _decision_dict := update _decision_dict overrides in
  mret _decision_dict.

(** One turn of the loop over [_continue_as_new_keys]: a key absent
    from [decision_dict] raises [KeyError], which is swallowed. *)
Definition copy_key (decision_dict : gmap string dval)
    (continue_as_new_dict : gmap string dval) (key : string)
    : gmap string dval :=
  match decision_dict !! key with
  | Some v => <[key := v]> continue_as_new_dict
  | None => continue_as_new_dict
  end.

Definition to_continue_as_new_dict (self : t) (input : payload)
    (worker_task_list : pyval) (ambient : option Context)
    : outcome (gmap string dval) :=
  decision_dict ← to_decision_dict self input PNone worker_task_list
                    PNone ambient;
  mret (foldl (copy_key decision_dict) ∅ _continue_as_new_keys).

Definition to_registration_options_dict (self : t)
    (domain worker_task_list : pyval) : option (gmap string dval) :=
  if skip_registration self then None
  else
    let task_list :=
      if decide (task_list self = USE_WORKER_TASK_LIST)
      then worker_task_list
      else task_list self in
    Some (<["domain" := Val domain]>
         (<["version" := Val (version self)]>
         (<["name" := Val (name self)]>
         (<["default_task_list" :=
             Dict {["name" := PStr (str_or_NONE task_list)]}]>
         (<["default_child_policy" :=
             Val (PStr (str_or_NONE (child_policy self)))]>
         (<["default_execution_start_to_close_timeout" :=
             Val (PStr (str_or_NONE
                         (execution_start_to_close_timeout self)))]>
         (<["default_task_start_to_close_timeout" :=
             Val (PStr (str_or_NONE (task_start_to_close_timeout self)))]>
         (<["description" :=
             Val (PStr (str_or_NONE (description self)))]> ∅)))))))).

Definition _reset_name (self : t) (name : pyval) (force : bool) : t :=
  if is_None (WorkflowType.name self) || force
  then {| version := version self;
          name := name;
          task_list := task_list self;
          child_policy := child_policy self;
          execution_start_to_close_timeout :=
            execution_start_to_close_timeout self;
          task_start_to_close_timeout := task_start_to_close_timeout self;
          description := description self;
          skip_registration := skip_registration self;
          workflow_id := workflow_id self;
          _data_converter := _data_converter self |}
  else self.

Definition __call__ (self : t) (__class_and_instance : named * ref)
    (args : list pyval) (kwargs : gmap string pyval)
    (ambient : option Context) : prog op returned :=
  let '(_class, _instance) := __class_and_instance in
  context ← Done (get_context ambient);
  match context with
  | StartWorkflowContext worker _ =>
      '(workflow_id, run_id) ←
        call (_start_workflow_execution worker self args kwargs);
      (* create an instance with our new workflow execution info *)
      let workflow_instance :=
        {| __class__ := _class;
           workflow_execution :=
             {| WorkflowExecution.workflow_id := workflow_id;
                WorkflowExecution.run_id := run_id |};
           instance_data_converter := data_converter self |} in
      mret (returned_instance workflow_instance)
  | DecisionContext decider workflow _ _ =>
      if execution_started decider then
        if decide (workflow = _instance) then
          continue_as_new_dict ←
            Done (to_continue_as_new_dict self (args, kwargs)
                    (context.task_list decider) ambient);
          r ← call (_continue_as_new_workflow_execution decider
                      continue_as_new_dict);
          mret (returned_object r)
        else
          (* the workflow_id and run_id are not known yet *)
          let workflow_instance :=
            {| __class__ := _class;
               workflow_execution :=
                 {| WorkflowExecution.workflow_id := PNone;
                    WorkflowExecution.run_id := PNone |};
               instance_data_converter := data_converter self |} in
          future ←
            call (_handle_start_child_workflow_execution decider self
                    workflow_instance (args, kwargs));
          mret (returned_object future)
      else mret returned_None
  | ActivityContext _ => raise NotImplementedError
  end.

(** [__hash__]; the builtin [hash] on strings is a parameter. *)
Definition __hash__ (hash : string -> Z) (self : t) : Z :=
  hash (str (name self) +:+ str (version self)).

End methods.
End WorkflowType.


(** ** ActivityType *)

Module ActivityType.

Record t : Type := {
  version : pyval;
  name : pyval;
  task_list : pyval;
  heartbeat_timeout : pyval;
  schedule_to_start_timeout : pyval;
  start_to_close_timeout : pyval;
  schedule_to_close_timeout : pyval;
  description : pyval;
  skip_registration : bool;
  data_converter : pyobject;
}.

Inductive op : Type -> Type :=
| _handle_execute_activity (decider : Decider) (self : t)
    (_decision_dict : gmap string dval)
    (args : list pyval) (kwargs : gmap string pyval) : op object.

Section methods.
Context `{Imports}.

Definition __init__
    (version name task_list : pyval)
    (heartbeat_timeout schedule_to_start_timeout : pyval)
    (start_to_close_timeout schedule_to_close_timeout : pyval)
    (description : pyval)
    (data_converter : pyobject)
    (skip_registration : bool) : t :=
  {| version := version;
     name := name;
     task_list := task_list;
     heartbeat_timeout := heartbeat_timeout;
     schedule_to_start_timeout := schedule_to_start_timeout;
     start_to_close_timeout := start_to_close_timeout;
     schedule_to_close_timeout := schedule_to_close_timeout;
     description := description;
     skip_registration := skip_registration;
     data_converter :=
       match data_converter with
       | Other PNone => Converter JSONDataConverter
       | _ => data_converter
       end |}.

Definition set_name (self : t) (_name : pyval) : t :=
  {| version := version self;
     name := _name;
     task_list := task_list self;
     heartbeat_timeout := heartbeat_timeout self;
     schedule_to_start_timeout := schedule_to_start_timeout self;
     start_to_close_timeout := start_to_close_timeout self;
     schedule_to_close_timeout := schedule_to_close_timeout self;
     description := description self;
     skip_registration := skip_registration self;
     data_converter := data_converter self |}.

(** The attributes that may hold [None], as keys of [getattr] and
    [setattr].  ([skip_registration] holds a boolean and is left out.) *)
Inductive attribute : Type :=
| attr_version
| attr_name
| attr_task_list
| attr_heartbeat_timeout
| attr_schedule_to_start_timeout
| attr_start_to_close_timeout
| attr_schedule_to_close_timeout
| attr_description
| attr_data_converter.

#[global] Instance attribute_eq_dec : EqDecision attribute.
Proof. solve_decision. Defined.





Definition _reset_name (self : t) (cls func : named)
    (activity_name_prefix : pyval) : t :=
  (* generate activity name *)
  let _name := str activity_name_prefix +:+ __name__ func in
  let _name :=
    if is_None (name self)
    then __name__ cls +:+ "." +:+ __name__ func
    else str activity_name_prefix +:+ str (name self) in
  set_name self (PStr _name).

Definition to_decision_dict (self : t) : gmap string dval :=
  <["activity_type_version" := Val (version self)]>
  (<["activity_type_name" := Val (name self)]>
  (<["task_list" := Dict {["name" := PStr (str_or_NONE (task_list self))]}]>
  (<["heartbeat_timeout" :=
      Val (PStr (str_or_NONE (heartbeat_timeout self)))]>
  (<["schedule_to_start_timeout" :=
      Val (PStr (str_or_NONE (schedule_to_start_timeout self)))]>
  (<["start_to_close_timeout" :=
      Val (PStr (str_or_NONE (start_to_close_timeout self)))]>
  (<["schedule_to_close_timeout" :=
      Val (PStr (str_or_NONE (schedule_to_close_timeout self)))]> ∅)))))).

Definition to_registration_options_dict (self : t)
    (domain worker_task_list : pyval) : option (gmap string dval) :=
  if skip_registration self then None
  else
    let task_list :=
      if decide (task_list self = USE_WORKER_TASK_LIST)
      then worker_task_list
      else task_list self in
    Some (<["domain" := Val domain]>
         (<["version" := Val (version self)]>
         (<["name" := Val (name self)]>
         (<["default_task_list" :=
             Dict {["name" := PStr (str_or_NONE task_list)]}]>
         (<["default_task_heartbeat_timeout" :=
             Val (PStr (str_or_NONE (heartbeat_timeout self)))]>
         (<["default_task_schedule_to_start_timeout" :=
             Val (PStr (str_or_NONE (schedule_to_start_timeout self)))]>
         (<["default_task_start_to_close_timeout" :=
             Val (PStr (str_or_NONE (start_to_close_timeout self)))]>
         (<["default_task_schedule_to_close_timeout" :=
             Val (PStr (str_or_NONE (schedule_to_close_timeout self)))]>
         (<["description" :=
             Val (PStr (str_or_NONE (description self)))]> ∅))))))))).

(** [context = None; try: context = get_context()
    except AttributeError: pass] *)
Definition context_or_None (ambient : option Context)
    : outcome (option Context) :=
  match get_context ambient with
  | Return c => Return (Some c)
  | Raise (AttributeError _) => Return None
  | Raise e => Raise e
  end.

Definition __call__ (self : t) (args : list pyval)
    (kwargs : gmap string pyval) (ambient : option Context)
    : prog op object :=
  context ← Done (context_or_None ambient);
  match context with
  | Some (DecisionContext decider _ _ _activity_options_overrides) =>
      let decision_dict := to_decision_dict self in
      (* apply any options overrides *)
      let _decision_dict : gmap string dval := ∅ in
      let _decision_dict := update _decision_dict decision_dict in
      let _decision_dict :=
        update _decision_dict _activity_options_overrides in
      call (_handle_execute_activity decider self _decision_dict args kwargs)
  | _ => raise TypeError
  end.

End methods.
End ActivityType.

(** ** SignalType *)

Module SignalType.

Record t : Type := {
  name : pyval;
  data_converter : pyobject;
  workflow_execution : option WorkflowExecution.t;
}.

Inductive op : Type -> Type :=
| _signal_workflow_execution_op (worker : Worker)
    (domain signal_name workflow_id run_id : pyval)
    (input : string) : op object.

Definition __init__ (name : pyval) (data_converter : pyobject)
    (workflow_execution : option WorkflowExecution.t) : t :=
  {| name := name;
     data_converter := data_converter;
     workflow_execution := None |}.

(** Assigning the target after construction:
    [self.workflow_execution = workflow_execution]. *)
Definition set_workflow_execution (self : t)
    (workflow_execution : option WorkflowExecution.t) : t :=
  {| name := name self;
     data_converter := data_converter self;
     workflow_execution := workflow_execution |}.

Definition to_decision_dict (self : t) : outcome (gmap string dval) :=
  Raise NotImplementedError.

Definition to_registration_options_dict (self : t)
    : outcome (gmap string dval) :=
  Raise NotImplementedError.

Definition _reset_name (self : t) : outcome t :=
  Raise NotImplementedError.

(** [workflow_execution.workflow_id] and [workflow_execution.run_id], read
    while the arguments of the delegated call are evaluated. *)
Definition target (workflow_execution : option WorkflowExecution.t)
    : outcome (pyval * pyval) :=
  match workflow_execution with
  | Some we =>
      Return (WorkflowExecution.workflow_id we, WorkflowExecution.run_id we)
  | None => Raise (AttributeError "workflow_id")
  end.

Definition __call__ (self : t) (args : list pyval)
    (kwargs : gmap string pyval) (ambient : option Context)
    : prog op pyval :=
  serialized_input ← Done (call_dumps (data_converter self) (args, kwargs));
  let workflow_execution := workflow_execution self in
  context ← Done (get_context ambient);
  match context with
  | StartWorkflowContext worker _ | ActivityContext worker =>
      '(workflow_id, run_id) ← Done (target workflow_execution);
      _ ← call (_signal_workflow_execution_op worker
                  (domain worker) (name self) workflow_id run_id
                  serialized_input);
      mret PNone
  | DecisionContext _ _ _ _ => raise RuntimeError
  end.

End SignalType.

(** ** Concrete descriptors and contexts *)

Module examples.

(** A converter that renders the positional arguments, comma separated. *)
Definition plain_converter : AbstractDataConverter :=
  {| dumps := fun input => "[" +:+ String.concat "," (str <$> input.1) +:+ "]" |}.

Definition imports : Imports :=
  {| USE_WORKER_TASK_LIST := PStr "USE_WORKER_TASK_LIST";
     CHILD_TERMINATE := PStr "TERMINATE";
     NONE := "NONE";
     JSONDataConverter := plain_converter |}.

(** [WorkflowType(version="1.0", execution_start_to_close_timeout=3600)]
    once the naming pass has run; [task_list] is the sentinel. *)
Definition workflow_type (name version : string) : WorkflowType.t :=
  {| WorkflowType.version := PStr version;
     WorkflowType.name := PStr name;
     WorkflowType.task_list := PStr "USE_WORKER_TASK_LIST";
     WorkflowType.child_policy := PStr "TERMINATE";
     WorkflowType.execution_start_to_close_timeout := PInt 3600;
     WorkflowType.task_start_to_close_timeout := PInt 30;
     WorkflowType.description := PStr "";
     WorkflowType.skip_registration := false;
     WorkflowType.workflow_id := PNone;
     WorkflowType._data_converter := plain_converter |}.

(** The same descriptor with [task_list] set. *)
Definition with_task_list (self : WorkflowType.t) (task_list : pyval)
    : WorkflowType.t :=
  {| WorkflowType.version := WorkflowType.version self;
     WorkflowType.name := WorkflowType.name self;
     WorkflowType.task_list := task_list;
     WorkflowType.child_policy := WorkflowType.child_policy self;
     WorkflowType.execution_start_to_close_timeout :=
       WorkflowType.execution_start_to_close_timeout self;
     WorkflowType.task_start_to_close_timeout :=
       WorkflowType.task_start_to_close_timeout self;
     WorkflowType.description := WorkflowType.description self;
     WorkflowType.skip_registration := WorkflowType.skip_registration self;
     WorkflowType.workflow_id := WorkflowType.workflow_id self;
     WorkflowType._data_converter := WorkflowType._data_converter self |}.

Definition activity_type (name : pyval) : ActivityType.t :=
  ActivityType.__init__ (H := imports) (PStr "1.0") name
    (PStr "USE_WORKER_TASK_LIST") PNone PNone PNone PNone PNone
    (Other PNone) false.

Definition workflow_class : named := {| __name__ := "OrderWorkflow" |}.
Definition activities_class : named := {| __name__ := "ImageActivities" |}.
Definition resize_func : named := {| __name__ := "resize" |}.

Definition worker : Worker := {| domain := PStr "prod" |}.

Definition decider (started : bool) : Decider :=
  {| execution_started := started; task_list := PStr "tl-decider" |}.

(** A Decision context whose running workflow is object 1. *)
Definition decision_context (started : bool) : Context :=
  DecisionContext (decider started) (Some 1%nat) ∅ ∅.

(** A Start context whose overrides replace the task list, as
    [workflow_options(task_list="tl-X")] does. *)
Definition start_context_overriding_task_list : Context :=
  StartWorkflowContext worker
    {["task_list" := Dict {["name" := PStr "tl-X"]}]}.

Definition wf1_run1 : WorkflowExecution.t :=
  {| WorkflowExecution.workflow_id := PStr "wf-1";
     WorkflowExecution.run_id := PStr "run-1" |}.

(** [s = SignalType("sig"); s.workflow_execution = WorkflowExecution("wf-1", "run-1")] *)
Definition default_signal : SignalType.t :=
  SignalType.set_workflow_execution
    (SignalType.__init__ (PStr "sig") (Other PNone) None)
    (Some wf1_run1).


(** [SignalType("sig", data_converter=plain_converter)], bound or not. *)
Definition signal (target : option WorkflowExecution.t) : SignalType.t :=
  {| SignalType.name := PStr "sig";
     SignalType.data_converter := Converter plain_converter;
     SignalType.workflow_execution := target |}.

(** Overrides as [workflow_options(version="2.0")] sets them. *)
Definition version_override : gmap string dval :=
  {["version" := Val (PStr "2.0")]}.

(** A stand-in for the builtin [hash] on strings. *)
Definition length_hash (s : string) : Z := Z.of_nat (String.length s).

End examples.

(** * Properties *)

(** ** Construction *)

Section construction.
Context `{Imports}.

(** The [data_converter] setter of [WorkflowType]: [None] selects the JSON
    converter, a converter instance is kept, anything else is refused. *)
Lemma data_converter_setter_cases (converter : pyobject) :
  match converter with
  | Other PNone =>
      WorkflowType.data_converter_setter converter = Return JSONDataConverter
  | Converter c => WorkflowType.data_converter_setter converter = Return c
  | Other _ => WorkflowType.data_converter_setter converter = Raise TypeError
  end.
Proof. destruct converter as [c|[| |]]; reflexivity. Qed.

(** Construction and reassignment of a [WorkflowType] fail exactly when the
    setter refuses the converter. *)
Lemma workflow_type_converter_checked
    (v e tl ts cp d n : pyval) (skip : bool) (value : pyval)
    (self : WorkflowType.t) :
  value <> PNone ->
  WorkflowType.__init__ v e tl ts cp d n (Other value) skip = Raise TypeError
  /\ WorkflowType.set_data_converter self (Other value) = Raise TypeError.
Proof. intros Hv. destruct value; [congruence| |]; split; reflexivity. Qed.

Lemma workflow_type_converter_default
    (v e tl ts cp d n : pyval) (skip : bool) :
  exists self,
    WorkflowType.__init__ v e tl ts cp d n (Other PNone) skip = Return self
    /\ WorkflowType.data_converter self = JSONDataConverter.
Proof. eexists; split; reflexivity. Qed.

(** C8: whatever is passed for the constructor's target-execution
    parameter, a freshly constructed [SignalType] has [workflow_execution]
    unset; a target is bound only by assigning it afterwards. *)
Theorem signal_init_leaves_target_unset
    (name : pyval) (data_converter : pyobject)
    (workflow_execution target : option WorkflowExecution.t) :
  SignalType.workflow_execution
    (SignalType.__init__ name data_converter workflow_execution) = None
  /\ SignalType.workflow_execution
       (SignalType.set_workflow_execution
          (SignalType.__init__ name data_converter workflow_execution)
          target) = target.
Proof. split; reflexivity. Qed.

(** C4, evaluated on the code: [SignalType.__init__] stores the converter
    argument as it is, so the default [None] stays [None] and a value that
    is no converter is kept; [ActivityType.__init__] replaces [None] by the
    JSON converter but keeps a value that is no converter.  Only
    [WorkflowType] goes through the checking setter. *)
Theorem signal_and_activity_converter_unchecked
    (name : pyval) (we : option WorkflowExecution.t)
    (v n tl h s1 s2 s3 d : pyval) (skip : bool) :
  SignalType.data_converter (SignalType.__init__ name (Other PNone) we)
    = Other PNone
  /\ SignalType.data_converter (SignalType.__init__ name (Other (PInt 5)) we)
    = Other (PInt 5)
  /\ ActivityType.data_converter
       (ActivityType.__init__ v n tl h s1 s2 s3 d (Other (PInt 5)) skip)
    = Other (PInt 5)
  /\ ActivityType.data_converter
       (ActivityType.__init__ v n tl h s1 s2 s3 d (Other PNone) skip)
    = Converter JSONDataConverter.
Proof. repeat split. Qed.

(** The descriptor used in the examples is
    [WorkflowType(version="1.0", execution_start_to_close_timeout=3600)]
    after the naming pass. *)
Example example_workflow_type_constructed :
  (self ← WorkflowType.__init__defaults (H := examples.imports)
            (PStr "1.0") (PInt 3600);
   mret (WorkflowType._reset_name self (PStr "Order") false))
  = Return (examples.workflow_type "Order" "1.0").
Proof. reflexivity. Qed.

(** A descriptor that opted out of registration yields no registration
    map, whatever its other fields. *)
Lemma skip_registration_yields_None
    (self : WorkflowType.t) (domain worker_task_list : pyval) :
  WorkflowType.skip_registration self = true ->
  WorkflowType.to_registration_options_dict self domain worker_task_list
  = None.
Proof. unfold WorkflowType.to_registration_options_dict. by intros ->. Qed.

(** [WorkflowType._reset_name] keeps a name that is set unless forced. *)
Lemma workflow_reset_name
    (self : WorkflowType.t) (candidate : pyval) (force : bool) :
  WorkflowType.name (WorkflowType._reset_name self candidate force)
  = if is_None (WorkflowType.name self) || force
    then candidate
    else WorkflowType.name self.
Proof.
  unfold WorkflowType._reset_name.
  by destruct (is_None (WorkflowType.name self) || force).
Qed.

End construction.

(** ** Naming and hashing *)

(** C9: [ActivityType._reset_name] gives an unnamed descriptor the name
    [<cls>.<func>], without the prefix; a descriptor that already has a
    name gets [<prefix><name>].  No other field changes. *)
Theorem activity_reset_name
    (self : ActivityType.t) (cls func : named) (activity_name_prefix : pyval) :
  (ActivityType.name self = PNone ->
     ActivityType.name
       (ActivityType._reset_name self cls func activity_name_prefix)
     = PStr (__name__ cls +:+ "." +:+ __name__ func))
  /\ (ActivityType.name self <> PNone ->
     ActivityType.name
       (ActivityType._reset_name self cls func activity_name_prefix)
     = PStr (str activity_name_prefix +:+ str (ActivityType.name self)))
  /\ ActivityType._reset_name self cls func activity_name_prefix
     = ActivityType.set_name self
         (ActivityType.name
            (ActivityType._reset_name self cls func activity_name_prefix)).
Proof.
  unfold ActivityType._reset_name.
  destruct (ActivityType.name self) eqn:Hname; simpl;
    repeat split; intros; congruence.
Qed.

Lemma activity_reset_name_witness :
  ActivityType.name
    (ActivityType._reset_name (examples.activity_type PNone)
       examples.activities_class examples.resize_func (PStr "img_"))
  = PStr "ImageActivities.resize"
  /\ ActivityType.name
       (ActivityType._reset_name (examples.activity_type (PStr "resize"))
          examples.activities_class examples.resize_func (PStr "img_"))
     = PStr "img_resize".
Proof.
  split.
  - apply (proj1 (activity_reset_name (examples.activity_type PNone)
                    examples.activities_class examples.resize_func
                    (PStr "img_"))).
    reflexivity.
  - apply (proj1 (proj2 (activity_reset_name
                           (examples.activity_type (PStr "resize"))
                           examples.activities_class examples.resize_func
                           (PStr "img_")))).
    discriminate.
Defined.

(** C2, as amended: two [WorkflowType] values whose [name] and [version]
    both match have the same hash, whatever the string hash is.  (The
    converse fails: the hash is taken of the two fields run together.) *)
Theorem workflow_type_hash_of_equal_identity
    (hash : string -> Z) (a b : WorkflowType.t) :
  WorkflowType.name a = WorkflowType.name b ->
  WorkflowType.version a = WorkflowType.version b ->
  WorkflowType.__hash__ hash a = WorkflowType.__hash__ hash b.
Proof. unfold WorkflowType.__hash__. intros -> ->. reflexivity. Qed.

Lemma workflow_type_hash_of_equal_identity_witness :
  WorkflowType.__hash__ examples.length_hash
    (examples.workflow_type "Order" "1.0")
  = WorkflowType.__hash__ examples.length_hash
      (examples.with_task_list (examples.workflow_type "Order" "1.0")
         (PStr "tl-B")).
Proof.
  apply (workflow_type_hash_of_equal_identity examples.length_hash
           (examples.workflow_type "Order" "1.0")
           (examples.with_task_list (examples.workflow_type "Order" "1.0")
              (PStr "tl-B")));
    reflexivity.
Defined.

(** C2 fails as stated: the descriptors named ["ab"] at version ["c"] and
    named ["a"] at version ["bc"] hash alike under every string hash,
    though neither field matches. *)
Lemma workflow_type_hash_collision :
  (forall hash : string -> Z,
     WorkflowType.__hash__ hash (examples.workflow_type "ab" "c")
     = WorkflowType.__hash__ hash (examples.workflow_type "a" "bc"))
  /\ ~ (WorkflowType.name (examples.workflow_type "ab" "c")
        = WorkflowType.name (examples.workflow_type "a" "bc")
        /\ WorkflowType.version (examples.workflow_type "ab" "c")
           = WorkflowType.version (examples.workflow_type "a" "bc")).
Proof.
  split.
  - intros hash. reflexivity.
  - intros [Hname _]. discriminate Hname.
Qed.

(** ** Dispatch on the ambient context *)

Section dispatch.
Context `{Imports}.

(** C7: outside a Decision context, with no active context, in a Start
    context or in an Activity context alike, calling an [ActivityType]
    raises [TypeError] and delegates nothing. *)
Theorem activity_call_outside_decision
    (self : ActivityType.t) (args : list pyval) (kwargs : gmap string pyval)
    (ambient : option Context) :
  is_DecisionContext ambient = false ->
  ActivityType.__call__ self args kwargs ambient = Done (Raise TypeError).
Proof. destruct ambient as [[]|]; [reflexivity|discriminate|reflexivity..]. Qed.

(** Inside a Decision context the call is handed to the decider, with the
    activity overrides merged over the decision map. *)
Lemma activity_call_in_decision
    (self : ActivityType.t) (args : list pyval) (kwargs : gmap string pyval)
    (decider : Decider) (workflow : ref) (wo ao : gmap string dval) :
  ActivityType.__call__ self args kwargs
    (Some (DecisionContext decider workflow wo ao))
  = Call (ActivityType._handle_execute_activity decider self
            (ao ∪ ActivityType.to_decision_dict self) args kwargs)
      (fun future => Done (Return future)).
Proof.
  unfold ActivityType.__call__, update; simpl.
  by rewrite (right_id_L ∅ (∪)).
Qed.

(** C10: in a Decision context whose decider has not started the
    execution, calling a [WorkflowType] returns [None]: nothing is raised
    and nothing is delegated.  The "Unsupported context" error is the
    outcome exactly in an Activity context. *)
Theorem workflow_call_before_execution_started
    (self : WorkflowType.t) (target : named * ref)
    (args : list pyval) (kwargs : gmap string pyval)
    (decider : Decider) (workflow : ref) (wo ao : gmap string dval) :
  execution_started decider = false ->
  WorkflowType.__call__ self target args kwargs
    (Some (DecisionContext decider workflow wo ao))
  = Done (Return WorkflowType.returned_None)
  /\ forall ambient,
       WorkflowType.__call__ self target args kwargs ambient
       = Done (Raise NotImplementedError)
       <-> exists worker, ambient = Some (ActivityContext worker).
Proof.
  intros Hstarted. destruct target as [_class _instance]. split.
  - simpl. by rewrite Hstarted.
  - intros [[worker o|d w o a|worker]|]; simpl.
    + split; [discriminate|]. by intros [? ?].
    + split; [|by intros [? ?]].
      destruct (execution_started d); [|discriminate].
      destruct (decide (w = _instance)); discriminate.
    + split; [by eexists|reflexivity].
    + split; [discriminate|]. by intros [? ?].
Qed.

(** In a Decision context the decision map is always produced, so the
    continue-as-new map is too. *)
Lemma continue_as_new_dict_in_decision
    (self : WorkflowType.t) (input : payload) (worker_task_list : pyval)
    (decider : Decider) (workflow : ref) (wo ao : gmap string dval) :
  exists d,
    WorkflowType.to_continue_as_new_dict self input worker_task_list
      (Some (DecisionContext decider workflow wo ao)) = Return d.
Proof. eexists. reflexivity. Qed.

(** C1, as amended: in a Decision context whose decider has started the
    execution, a call whose target differs from the running workflow
    instance builds a handle on the execution [(None, None)], hands a
    start-child-workflow request to the decider and returns the decider's
    future; a call whose target is the running instance builds the
    continue-as-new map from the decider's task list and hands it to the
    decider's continue-as-new operation. *)
Theorem workflow_call_in_started_decision
    (self : WorkflowType.t) (_class : named) (_instance : ref)
    (args : list pyval) (kwargs : gmap string pyval)
    (decider : Decider) (workflow : ref) (wo ao : gmap string dval) :
  execution_started decider = true ->
  (workflow <> _instance ->
     WorkflowType.__call__ self (_class, _instance) args kwargs
       (Some (DecisionContext decider workflow wo ao))
     = Call (WorkflowType._handle_start_child_workflow_execution decider self
               {| WorkflowType.__class__ := _class;
                  WorkflowType.workflow_execution :=
                    {| WorkflowExecution.workflow_id := PNone;
                       WorkflowExecution.run_id := PNone |};
                  WorkflowType.instance_data_converter :=
                    WorkflowType.data_converter self |}
               (args, kwargs))
         (fun future => Done (Return (WorkflowType.returned_object future))))
  /\ (workflow = _instance ->
      exists continue_as_new_dict,
        WorkflowType.to_continue_as_new_dict self (args, kwargs)
          (task_list decider)
          (Some (DecisionContext decider workflow wo ao))
        = Return continue_as_new_dict
        /\ WorkflowType.__call__ self (_class, _instance) args kwargs
             (Some (DecisionContext decider workflow wo ao))
           = Call (WorkflowType._continue_as_new_workflow_execution decider
                     continue_as_new_dict)
               (fun r => Done (Return (WorkflowType.returned_object r)))).
Proof.
  intros Hstarted. split; intros Htarget.
  - unfold WorkflowType.__call__; simpl. rewrite Hstarted.
    by destruct (decide (workflow = _instance)).
  - destruct (continue_as_new_dict_in_decision self (args, kwargs)
                (task_list decider) decider workflow wo ao) as [d Hd].
    exists d. split; [exact Hd|].
    unfold WorkflowType.__call__. cbn [get_context mbind prog_mbind prog_bind].
    rewrite Hstarted. destruct (decide (workflow = _instance)); [|done].
    by rewrite Hd.
Qed.

(** X19: in a Start context a [WorkflowType] call hands one start request
    to the worker, with the descriptor and the arguments, whatever the
    target instance and the overrides, and returns a handle of the given
    class bound to the identifiers the worker reports and to the
    descriptor's converter. *)
Lemma workflow_call_in_start
    (self : WorkflowType.t) (_class : named) (_instance : ref)
    (args : list pyval) (kwargs : gmap string pyval)
    (worker : Worker) (wo : gmap string dval) :
  WorkflowType.__call__ self (_class, _instance) args kwargs
    (Some (StartWorkflowContext worker wo))
  = Call (WorkflowType._start_workflow_execution worker self args kwargs)
      (fun '(workflow_id, run_id) =>
         Done (Return (WorkflowType.returned_instance
           {| WorkflowType.__class__ := _class;
              WorkflowType.workflow_execution :=
                {| WorkflowExecution.workflow_id := workflow_id;
                   WorkflowExecution.run_id := run_id |};
              WorkflowType.instance_data_converter :=
                WorkflowType.data_converter self |}))).
Proof. reflexivity. Qed.

(** X16: a [SignalType] that holds a converter, called in a Start or
    Activity context with no target bound, fails on the missing target
    ([AttributeError] on [workflow_id]) and delegates nothing. *)
Lemma signal_call_without_target
    (name : pyval) (c : AbstractDataConverter)
    (args : list pyval) (kwargs : gmap string pyval) (context : Context) :
  is_DecisionContext (Some context) = false ->
  SignalType.__call__
    {| SignalType.name := name;
       SignalType.data_converter := Converter c;
       SignalType.workflow_execution := None |}
    args kwargs (Some context)
  = Done (Raise (AttributeError "workflow_id")).
Proof. destruct context; [reflexivity|discriminate|reflexivity]. Qed.

(** X17: a [SignalType] that holds a converter and a target, called in a
    Start or Activity context, hands exactly one signal request to the worker,
    with the worker's domain, the signal name, the target's identifiers and
    the serialized [[args, kwargs]], and returns [None]. *)
Lemma signal_call_with_target
    (name : pyval) (c : AbstractDataConverter) (we : WorkflowExecution.t)
    (args : list pyval) (kwargs : gmap string pyval)
    (worker : Worker) (wo : gmap string dval) (context : Context) :
  context = StartWorkflowContext worker wo \/ context = ActivityContext worker ->
  SignalType.__call__
    {| SignalType.name := name;
       SignalType.data_converter := Converter c;
       SignalType.workflow_execution := Some we |}
    args kwargs (Some context)
  = Call (SignalType._signal_workflow_execution_op worker
            (domain worker) name
            (WorkflowExecution.workflow_id we) (WorkflowExecution.run_id we)
            (dumps c (args, kwargs)))
      (fun _ => Done (Return PNone)).
Proof. intros [->| ->]; reflexivity. Qed.

(** X18: in a Decision context a [SignalType] that holds a converter is
    refused with [RuntimeError], whether or not a target is bound: the
    context is checked before the target is read. *)
Lemma signal_call_in_decision
    (self : SignalType.t) (c : AbstractDataConverter)
    (args : list pyval) (kwargs : gmap string pyval)
    (decider : Decider) (workflow : ref) (wo ao : gmap string dval) :
  SignalType.data_converter self = Converter c ->
  SignalType.__call__ self args kwargs
    (Some (DecisionContext decider workflow wo ao))
  = Done (Raise RuntimeError).
Proof. intros Hc. unfold SignalType.__call__. by rewrite Hc. Qed.

(** C3, evaluated on the code: a [SignalType] built with the default
    converter argument holds [None] as its converter, so a call fails on
    [self.data_converter.dumps] before the context or the target is looked
    at, whether or not a target is bound, and nothing is delegated. *)
Theorem signal_call_with_default_converter
    (name : pyval) (target : option WorkflowExecution.t)
    (args : list pyval) (kwargs : gmap string pyval)
    (ambient : option Context) :
  SignalType.__call__
    (SignalType.set_workflow_execution
       (SignalType.__init__ name (Other PNone) None) target)
    args kwargs ambient
  = Done (Raise (AttributeError "dumps")).
Proof. reflexivity. Qed.

End dispatch.

Lemma activity_call_outside_decision_witness :
  ActivityType.__call__ (H := examples.imports)
    (examples.activity_type (PStr "resize")) [PInt 1] ∅ None
  = Done (Raise TypeError)
  /\ ActivityType.__call__ (H := examples.imports)
       (examples.activity_type (PStr "resize")) [PInt 1] ∅
       (Some (StartWorkflowContext examples.worker ∅))
     = Done (Raise TypeError).
Proof.
  split.
  - apply (activity_call_outside_decision (H := examples.imports)
             (examples.activity_type (PStr "resize")) [PInt 1] ∅ None).
    reflexivity.
  - apply (activity_call_outside_decision (H := examples.imports)
             (examples.activity_type (PStr "resize")) [PInt 1] ∅
             (Some (StartWorkflowContext examples.worker ∅))).
    reflexivity.
Defined.

Lemma workflow_call_before_execution_started_witness :
  WorkflowType.__call__ (H := examples.imports)
    (examples.workflow_type "Order" "1.0")
    (examples.workflow_class, Some 2%nat) [PInt 1] ∅
    (Some (examples.decision_context false))
  = Done (Return WorkflowType.returned_None).
Proof.
  apply (workflow_call_before_execution_started (H := examples.imports)
           (examples.workflow_type "Order" "1.0")
           (examples.workflow_class, Some 2%nat) [PInt 1] ∅
           (examples.decider false) (Some 1%nat) ∅ ∅).
  reflexivity.
Defined.

(** C1 fails as stated: in a Decision context whose decider has not
    started the execution, a call whose target (object 2) differs from the
    running workflow (object 1) returns [None] and requests no child
    workflow. *)
Lemma workflow_call_no_child_before_start :
  Some 1%nat <> Some 2%nat
  /\ WorkflowType.__call__ (H := examples.imports)
       (examples.workflow_type "Order" "1.0")
       (examples.workflow_class, Some 2%nat) [PInt 1] ∅
       (Some (examples.decision_context false))
     = Done (Return WorkflowType.returned_None)
  /\ WorkflowType.__call__ (H := examples.imports)
       (examples.workflow_type "Order" "1.0")
       (examples.workflow_class, Some 2%nat) [PInt 1] ∅
       (Some (examples.decision_context false))
     <> Call (WorkflowType._handle_start_child_workflow_execution
                (examples.decider false)
                (examples.workflow_type "Order" "1.0")
                {| WorkflowType.__class__ := examples.workflow_class;
                   WorkflowType.workflow_execution :=
                     {| WorkflowExecution.workflow_id := PNone;
                        WorkflowExecution.run_id := PNone |};
                   WorkflowType.instance_data_converter :=
                     examples.plain_converter |}
                ([PInt 1], ∅))
          (fun future => Done (Return (WorkflowType.returned_object future))).
Proof. repeat split; discriminate. Qed.

Lemma workflow_call_in_started_decision_witness :
  WorkflowType.__call__ (H := examples.imports)
    (examples.workflow_type "Order" "1.0")
    (examples.workflow_class, Some 2%nat) [PInt 1] ∅
    (Some (examples.decision_context true))
  = Call (WorkflowType._handle_start_child_workflow_execution
            (examples.decider true)
            (examples.workflow_type "Order" "1.0")
            {| WorkflowType.__class__ := examples.workflow_class;
               WorkflowType.workflow_execution :=
                 {| WorkflowExecution.workflow_id := PNone;
                    WorkflowExecution.run_id := PNone |};
               WorkflowType.instance_data_converter :=
                 examples.plain_converter |}
            ([PInt 1], ∅))
      (fun future => Done (Return (WorkflowType.returned_object future)))
  /\ exists continue_as_new_dict,
       WorkflowType.to_continue_as_new_dict (H := examples.imports)
         (examples.workflow_type "Order" "1.0") ([PInt 1], ∅)
         (PStr "tl-decider") (Some (examples.decision_context true))
       = Return continue_as_new_dict
       /\ WorkflowType.__call__ (H := examples.imports)
            (examples.workflow_type "Order" "1.0")
            (examples.workflow_class, Some 1%nat) [PInt 1] ∅
            (Some (examples.decision_context true))
          = Call (WorkflowType._continue_as_new_workflow_execution
                    (examples.decider true) continue_as_new_dict)
              (fun r => Done (Return (WorkflowType.returned_object r))).
Proof.
  split.
  - apply (proj1 (workflow_call_in_started_decision (H := examples.imports)
                    (examples.workflow_type "Order" "1.0")
                    examples.workflow_class (Some 2%nat) [PInt 1] ∅
                    (examples.decider true) (Some 1%nat) ∅ ∅ eq_refl)).
    discriminate.
  - apply (proj2 (workflow_call_in_started_decision (H := examples.imports)
                    (examples.workflow_type "Order" "1.0")
                    examples.workflow_class (Some 1%nat) [PInt 1] ∅
                    (examples.decider true) (Some 1%nat) ∅ ∅ eq_refl)).
    reflexivity.
Defined.

(** ** Decision maps *)

(** What the loop over the whitelist leaves under a key. *)
Lemma foldl_copy_key_lookup
    (decision_dict acc : gmap string dval) (keys : list string) (k : string) :
  foldl (WorkflowType.copy_key decision_dict) acc keys !! k
  = if decide (k ∈ keys)
    then match decision_dict !! k with
         | Some v => Some v
         | None => acc !! k
         end
    else acc !! k.
Proof.
  revert acc. induction keys as [|key keys IH]; intros acc; simpl.
  - destruct (decide (k ∈ [])) as [Hin|_]; [by apply elem_of_nil in Hin|done].
  - rewrite IH. unfold WorkflowType.copy_key.
    destruct (decide (k = key)) as [->|Hne].
    + rewrite (decide_True (P := key ∈ key :: keys)) by left.
      destruct (decision_dict !! key) eqn:Hkey.
      * rewrite lookup_insert_eq. by destruct (decide (key ∈ keys)).
      * by destruct (decide (key ∈ keys)).
    + assert (k ∈ key :: keys <-> k ∈ keys) as Hiff.
      { rewrite elem_of_cons. split; [intros [?|?]; [contradiction|assumption]|by right]. }
      assert ((match decision_dict !! key with
               | Some v => <[key:=v]> acc
               | None => acc
               end) !! k = acc !! k) as ->.
      { destruct (decision_dict !! key); [by rewrite lookup_insert_ne|done]. }
      destruct (decide (k ∈ keys)) as [Hin|Hin].
      * by rewrite decide_True by (by apply Hiff).
      * by rewrite decide_False by (by rewrite Hiff).
Qed.

Section maps.
Context `{Imports}.

(** The entry the descriptor itself puts under [task_list] reaches the
    result unless the ambient overrides carry that key. *)
Lemma decision_dict_task_list
    (self : WorkflowType.t) (input : payload)
    (workflow_id worker_task_list domain : pyval)
    (context : Context) (overrides : gmap string dval) :
  _workflow_options_overrides context = Return overrides ->
  overrides !! "task_list" = None ->
  exists d,
    WorkflowType.to_decision_dict self input workflow_id worker_task_list
      domain (Some context) = Return d
    /\ d !! "task_list"
       = Some (Dict {["name" :=
            PStr (str_or_NONE
                    (if decide (WorkflowType.task_list self
                                = USE_WORKER_TASK_LIST)
                     then worker_task_list
                     else WorkflowType.task_list self))]}).
Proof.
  intros Hoverrides Hnone. unfold WorkflowType.to_decision_dict.
  cbn [get_context mbind outcome_bind]. rewrite Hoverrides.
  eexists. split; [reflexivity|].
  unfold update. rewrite lookup_union_r by exact Hnone.
  rewrite (right_id_L ∅ (∪)).
  destruct (negb (is_None domain));
    destruct (negb (is_None workflow_id)
              && is_None (WorkflowType.workflow_id self));
    by simplify_map_eq.
Qed.

(** C5, as amended: when the ambient overrides carry no [task_list] key,
    a descriptor whose [task_list] is the sentinel takes the task list of
    the worker, and a descriptor with a task list of its own keeps it,
    whatever the worker's is. *)
Theorem decision_dict_task_list_resolution
    (self : WorkflowType.t) (input : payload)
    (workflow_id worker_task_list domain : pyval)
    (context : Context) (overrides : gmap string dval)
    (tl_A tl_B : string) :
  _workflow_options_overrides context = Return overrides ->
  overrides !! "task_list" = None ->
  (WorkflowType.task_list self = USE_WORKER_TASK_LIST ->
     exists d,
       WorkflowType.to_decision_dict self input workflow_id (PStr tl_A)
         domain (Some context) = Return d
       /\ d !! "task_list" = Some (Dict {["name" := PStr tl_A]}))
  /\ (WorkflowType.task_list self = PStr tl_B ->
      PStr tl_B <> USE_WORKER_TASK_LIST ->
      exists d,
        WorkflowType.to_decision_dict self input workflow_id worker_task_list
          domain (Some context) = Return d
        /\ d !! "task_list" = Some (Dict {["name" := PStr tl_B]})).
Proof.
  intros Hoverrides Hnone. split.
  - intros Hsentinel.
    destruct (decision_dict_task_list self input workflow_id (PStr tl_A)
                domain context overrides Hoverrides Hnone) as (d & Hd & Htl).
    exists d. split; [exact Hd|].
    rewrite Htl. by rewrite decide_True by exact Hsentinel.
  - intros Hown Hne.
    destruct (decision_dict_task_list self input workflow_id worker_task_list
                domain context overrides Hoverrides Hnone) as (d & Hd & Htl).
    exists d. split; [exact Hd|].
    rewrite Htl. rewrite decide_False by congruence. by rewrite Hown.
Qed.

(** C6: whenever the decision map is produced, the continue-as-new map is
    produced too; its keys lie in the whitelist, so [workflow_type],
    [domain] and [workflow_id] never occur; under each whitelist key it
    holds what the decision map holds, and a key the decision map lacks is
    simply absent. *)
Theorem continue_as_new_dict_keys
    (self : WorkflowType.t) (input : payload) (worker_task_list : pyval)
    (ambient : option Context) (decision_dict : gmap string dval) :
  WorkflowType.to_decision_dict self input PNone worker_task_list PNone
    ambient = Return decision_dict ->
  exists d,
    WorkflowType.to_continue_as_new_dict self input worker_task_list ambient
    = Return d
    /\ dom d ⊆ list_to_set WorkflowType._continue_as_new_keys
    /\ ("workflow_type" ∉ dom d)
    /\ ("domain" ∉ dom d)
    /\ ("workflow_id" ∉ dom d)
    /\ (forall key, key ∈ WorkflowType._continue_as_new_keys ->
          d !! key = decision_dict !! key).
Proof.
  intros Hdd. unfold WorkflowType.to_continue_as_new_dict. rewrite Hdd.
  eexists. split; [reflexivity|].
  assert (forall k,
    k ∈ dom (foldl (WorkflowType.copy_key decision_dict) ∅
               WorkflowType._continue_as_new_keys) ->
    k ∈ WorkflowType._continue_as_new_keys) as Hdom.
  { intros k [v Hv]%elem_of_dom. rewrite foldl_copy_key_lookup in Hv.
    case_decide; [done|]. by rewrite lookup_empty in Hv. }
  split; [|repeat split].
  - intros k Hk. apply elem_of_list_to_set. by apply Hdom.
  - intros Hin%Hdom. revert Hin. by apply (bool_decide_unpack _).
  - intros Hin%Hdom. revert Hin. by apply (bool_decide_unpack _).
  - intros Hin%Hdom. revert Hin. by apply (bool_decide_unpack _).
  - intros key Hkey. rewrite foldl_copy_key_lookup.
    rewrite decide_True by exact Hkey.
    by destruct (decision_dict !! key).
Qed.

End maps.

(** C5 fails as stated: with the descriptor's [task_list] at the sentinel
    and the worker task list ["tl-A"], a Start context whose overrides
    carry [task_list] yields a decision map whose task list is the
    overriding ["tl-X"]. *)
Lemma decision_dict_task_list_overridden :
  WorkflowType.task_list (examples.workflow_type "Order" "1.0")
  = USE_WORKER_TASK_LIST (Imports := examples.imports)
  /\ exists d,
       WorkflowType.to_decision_dict (H := examples.imports)
         (examples.workflow_type "Order" "1.0") ([PInt 1], ∅)
         PNone (PStr "tl-A") PNone
         (Some examples.start_context_overriding_task_list) = Return d
       /\ d !! "task_list" = Some (Dict {["name" := PStr "tl-X"]})
       /\ d !! "task_list" <> Some (Dict {["name" := PStr "tl-A"]}).
Proof.
  split; [reflexivity|]. eexists. split; [reflexivity|].
  assert (forall d : gmap string dval,
            (update (update ∅ d)
               {["task_list" := Dict {["name" := PStr "tl-X"]}]})
              !! "task_list"
            = Some (Dict {["name" := PStr "tl-X"]})) as Hov.
  { intros d. unfold update. by rewrite lookup_union_l', lookup_singleton_eq. }
  split.
  - apply Hov.
  - rewrite Hov. intros Heq.
    assert (Some (PStr "tl-X") = Some (PStr "tl-A")) as Hname; [|discriminate].
    change (Some (Dict {["name" := PStr "tl-X"]})
              ≫= (fun v => match v with
                           | Dict m => m !! "name"
                           | Val _ => None
                           end)
            = Some (PStr "tl-A")).
    by rewrite Heq.
Qed.

Lemma decision_dict_task_list_resolution_witness :
  (exists d,
     WorkflowType.to_decision_dict (H := examples.imports)
       (examples.workflow_type "Order" "1.0") ([PInt 1], ∅)
       PNone (PStr "tl-A") PNone
       (Some (StartWorkflowContext examples.worker ∅)) = Return d
     /\ d !! "task_list" = Some (Dict {["name" := PStr "tl-A"]}))
  /\ (exists d,
        WorkflowType.to_decision_dict (H := examples.imports)
          (examples.with_task_list (examples.workflow_type "Order" "1.0")
             (PStr "tl-B"))
          ([PInt 1], ∅) PNone (PStr "tl-A") PNone
          (Some (StartWorkflowContext examples.worker ∅)) = Return d
        /\ d !! "task_list" = Some (Dict {["name" := PStr "tl-B"]})).
Proof.
  split.
  - refine (proj1 (decision_dict_task_list_resolution (H := examples.imports)
                     (examples.workflow_type "Order" "1.0") ([PInt 1], ∅)
                     PNone (PStr "tl-A") PNone
                     (StartWorkflowContext examples.worker ∅) ∅
                     "tl-A" "tl-B" eq_refl (lookup_empty _)) _).
    reflexivity.
  - apply (proj2 (decision_dict_task_list_resolution (H := examples.imports)
                    (examples.with_task_list
                       (examples.workflow_type "Order" "1.0") (PStr "tl-B"))
                    ([PInt 1], ∅)
                    PNone (PStr "tl-A") PNone
                    (StartWorkflowContext examples.worker ∅) ∅
                    "tl-A" "tl-B" eq_refl (lookup_empty _))).
    + reflexivity.
    + discriminate.
Defined.

Lemma continue_as_new_dict_keys_witness :
  exists decision_dict d,
    WorkflowType.to_decision_dict (H := examples.imports)
      (examples.workflow_type "Order" "1.0") ([PInt 1], ∅)
      PNone (PStr "tl-A") PNone (Some (examples.decision_context true))
    = Return decision_dict
    /\ WorkflowType.to_continue_as_new_dict (H := examples.imports)
         (examples.workflow_type "Order" "1.0") ([PInt 1], ∅)
         (PStr "tl-A") (Some (examples.decision_context true))
       = Return d
    /\ dom d ⊆ list_to_set WorkflowType._continue_as_new_keys
    /\ ("workflow_type" ∉ dom d)
    /\ ("domain" ∉ dom d)
    /\ ("workflow_id" ∉ dom d)
    /\ (forall key, key ∈ WorkflowType._continue_as_new_keys ->
          d !! key = decision_dict !! key).
Proof.
  eexists.
  destruct (continue_as_new_dict_keys (H := examples.imports)
              (examples.workflow_type "Order" "1.0") ([PInt 1], ∅)
              (PStr "tl-A") (Some (examples.decision_context true))
              _ eq_refl) as [d Hd].
  exists d. split; [reflexivity|exact Hd].
Defined.

(** The decision map of a call that carries no overrides has no [version]
    key, so the continue-as-new map has five of the six whitelist keys. *)
Example continue_as_new_dict_omits_version :
  exists d,
    WorkflowType.to_continue_as_new_dict (H := examples.imports)
      (examples.workflow_type "Order" "1.0") ([PInt 1], ∅)
      (PStr "tl-A") (Some (examples.decision_context true))
    = Return d
    /\ d !! "version" = None
    /\ d !! "task_list" = Some (Dict {["name" := PStr "tl-A"]})
    /\ d !! "input" = Some (Val (PStr "[1]"))
    /\ size d = 5%nat.
Proof. eexists. split; [reflexivity|]. by vm_compute. Qed.

(** * Further properties *)

(** ** Construction and naming *)

Section descriptors.
Context `{Imports}.

(** X1: constructing a [WorkflowType] succeeds exactly when the converter
    argument is [None] or a converter instance, and the only error it
    raises is [TypeError].  On success every argument is stored as given,
    [workflow_id] is [None], and the converter is the argument, or the
    JSON converter for [None]. *)
Theorem workflow_type_init_outcome
    (v e tl ts cp d n : pyval) (converter : pyobject) (skip : bool) :
  ((exists self,
      WorkflowType.__init__ v e tl ts cp d n converter skip = Return self)
   <-> (converter = Other PNone \/ exists c, converter = Converter c))
  /\ (forall self,
        WorkflowType.__init__ v e tl ts cp d n converter skip = Return self ->
        self = {| WorkflowType.version := v;
                  WorkflowType.name := n;
                  WorkflowType.task_list := tl;
                  WorkflowType.child_policy := cp;
                  WorkflowType.execution_start_to_close_timeout := e;
                  WorkflowType.task_start_to_close_timeout := ts;
                  WorkflowType.description := d;
                  WorkflowType.skip_registration := skip;
                  WorkflowType.workflow_id := PNone;
                  WorkflowType._data_converter :=
                    match converter with
                    | Converter c => c
                    | Other _ => JSONDataConverter
                    end |})
  /\ (forall err,
        WorkflowType.__init__ v e tl ts cp d n converter skip = Raise err ->
        err = TypeError).
Proof.
  split; [|split].
  - split.
    + intros [self Hself].
      destruct converter as [c|[|z|s]]; [by right; eexists|by left|..];
        discriminate Hself.
    + intros [->|[c ->]]; eexists; reflexivity.
  - intros self Hself.
    destruct converter as [c|[|z|s]]; cbn in Hself; by inversion Hself.
  - intros err Herr.
    destruct converter as [c|[|z|s]]; cbn in Herr; by inversion Herr.
Qed.


End descriptors.


(** X4: [ActivityType._reset_name] always leaves a name, so it is not
    idempotent: applied again, it takes the already-named branch and puts
    the new prefix in front of the name the first pass produced. *)
Theorem activity_reset_name_twice
    (self : ActivityType.t) (cls func cls' func' : named)
    (prefix prefix' : pyval) :
  ActivityType.name (ActivityType._reset_name self cls func prefix) <> PNone
  /\ ActivityType.name
       (ActivityType._reset_name
          (ActivityType._reset_name self cls func prefix) cls' func' prefix')
     = PStr (str prefix'
             +:+ str (ActivityType.name
                        (ActivityType._reset_name self cls func prefix))).
Proof. split; [discriminate|reflexivity]. Qed.


(** ** Option maps *)

Section option_maps.
Context `{Imports}.

(** The decision map is the overrides laid over the map the descriptor
    builds; the latter has the six fixed keys, [workflow_id] for a child
    workflow and [domain] when one is given. *)
Lemma decision_dict_shape
    (self : WorkflowType.t) (input : payload)
    (workflow_id worker_task_list domain : pyval)
    (context : Context) (overrides : gmap string dval) :
  _workflow_options_overrides context = Return overrides ->
  exists base : gmap string dval,
    WorkflowType.to_decision_dict self input workflow_id worker_task_list
      domain (Some context) = Return (overrides ∪ base)
    /\ dom base
       = ({["workflow_type"; "task_list"; "child_policy";
            "execution_start_to_close_timeout";
            "task_start_to_close_timeout"; "input"]} : gset string)
         ∪ (if negb (is_None workflow_id)
               && is_None (WorkflowType.workflow_id self)
            then {["workflow_id"]} else ∅)
         ∪ (if negb (is_None domain) then {["domain"]} else ∅)
    /\ base !! "workflow_id"
       = (if negb (is_None workflow_id)
             && is_None (WorkflowType.workflow_id self)
          then Some (Val workflow_id) else None)
    /\ base !! "domain"
       = (if negb (is_None domain) then Some (Val domain) else None)
    /\ base !! "version" = None.
Proof.
  intros Hoverrides. unfold WorkflowType.to_decision_dict.
  cbn [get_context mbind outcome_bind]. rewrite Hoverrides.
  eexists. split.
  { unfold update. by rewrite (right_id_L ∅ (∪)). }
  destruct (negb (is_None domain));
    destruct (negb (is_None workflow_id)
              && is_None (WorkflowType.workflow_id self));
    (split; [rewrite !dom_insert_L, dom_empty_L; set_solver
            |by simplify_map_eq]).
Qed.

(** X6: an entry of the ambient workflow-option overrides always reaches
    the decision map, whatever the descriptor or the call would have put
    under that key. *)
Theorem decision_dict_override_wins
    (self : WorkflowType.t) (input : payload)
    (workflow_id worker_task_list domain : pyval)
    (context : Context) (overrides : gmap string dval)
    (key : string) (v : dval) :
  _workflow_options_overrides context = Return overrides ->
  overrides !! key = Some v ->
  exists d,
    WorkflowType.to_decision_dict self input workflow_id worker_task_list
      domain (Some context) = Return d
    /\ d !! key = Some v.
Proof.
  intros Hoverrides Hkey.
  destruct (decision_dict_shape self input workflow_id worker_task_list
              domain context overrides Hoverrides) as (base & Hd & _).
  exists (overrides ∪ base). split; [exact Hd|].
  by apply lookup_union_Some_l.
Qed.

(** X7: the keys of the decision map are the keys of the overrides, the
    six fixed keys, [workflow_id] exactly when one is passed and the
    descriptor has none of its own, and [domain] exactly when one is
    passed. *)
Theorem decision_dict_key_set
    (self : WorkflowType.t) (input : payload)
    (workflow_id worker_task_list domain : pyval)
    (context : Context) (overrides : gmap string dval) :
  _workflow_options_overrides context = Return overrides ->
  exists d,
    WorkflowType.to_decision_dict self input workflow_id worker_task_list
      domain (Some context) = Return d
    /\ dom d
       = dom overrides
         ∪ ({["workflow_type"; "task_list"; "child_policy";
              "execution_start_to_close_timeout";
              "task_start_to_close_timeout"; "input"]} : gset string)
         ∪ (if negb (is_None workflow_id)
               && is_None (WorkflowType.workflow_id self)
            then {["workflow_id"]} else ∅)
         ∪ (if negb (is_None domain) then {["domain"]} else ∅).
Proof.
  intros Hoverrides.
  destruct (decision_dict_shape self input workflow_id worker_task_list
              domain context overrides Hoverrides) as (base & Hd & Hdom & _).
  exists (overrides ∪ base). split; [exact Hd|].
  rewrite dom_union_L, Hdom. by rewrite !(assoc_L (∪)).
Qed.

(** X8: unless the overrides say otherwise, a descriptor that has a
    [workflow_id] of its own never takes the one passed in, and a
    descriptor without one takes exactly the one passed in. *)
Theorem decision_dict_child_workflow_id
    (self : WorkflowType.t) (input : payload)
    (workflow_id worker_task_list domain : pyval)
    (context : Context) (overrides : gmap string dval) :
  _workflow_options_overrides context = Return overrides ->
  overrides !! "workflow_id" = None ->
  exists d,
    WorkflowType.to_decision_dict self input workflow_id worker_task_list
      domain (Some context) = Return d
    /\ (WorkflowType.workflow_id self <> PNone -> d !! "workflow_id" = None)
    /\ (WorkflowType.workflow_id self = PNone -> workflow_id <> PNone ->
        d !! "workflow_id" = Some (Val workflow_id))
    /\ (workflow_id = PNone -> d !! "workflow_id" = None).
Proof.
  intros Hoverrides Hnone.
  destruct (decision_dict_shape self input workflow_id worker_task_list
              domain context overrides Hoverrides)
    as (base & Hd & _ & Hwid & _).
  exists (overrides ∪ base). split; [exact Hd|].
  rewrite lookup_union_r by exact Hnone. rewrite Hwid.
  destruct workflow_id, (WorkflowType.workflow_id self); cbn;
    repeat split; intros; congruence.
Qed.

(** X9: the continue-as-new map has exactly the five whitelist keys the
    descriptor fills, and [version] only when the overrides carry it: the
    decision map keeps the version inside [workflow_type], which is not
    whitelisted. *)
Theorem continue_as_new_dict_exact_keys
    (self : WorkflowType.t) (input : payload) (worker_task_list : pyval)
    (context : Context) (overrides : gmap string dval) :
  _workflow_options_overrides context = Return overrides ->
  exists d,
    WorkflowType.to_continue_as_new_dict self input worker_task_list
      (Some context) = Return d
    /\ d !! "version" = overrides !! "version"
    /\ dom d
       = ({["task_start_to_close_timeout"; "child_policy"; "task_list";
            "execution_start_to_close_timeout"; "input"]} : gset string)
         ∪ (match overrides !! "version" with
            | Some _ => {["version"]}
            | None => ∅
            end).
Proof.
  intros Hoverrides.
  destruct (decision_dict_shape self input PNone worker_task_list PNone
              context overrides Hoverrides)
    as (base & Hd & Hdom & _ & _ & Hversion).
  unfold WorkflowType.to_continue_as_new_dict. rewrite Hd.
  eexists. split; [reflexivity|].
  assert ((overrides ∪ base) !! "version" = overrides !! "version") as Hv.
  { rewrite lookup_union, Hversion. by destruct (overrides !! "version"). }
  split.
  - rewrite foldl_copy_key_lookup, lookup_empty, Hv.
    rewrite decide_True by (by apply (bool_decide_unpack _)).
    by destruct (overrides !! "version").
  - cbn in Hdom.
    assert (forall key : string,
              key ∈ ["task_start_to_close_timeout"; "child_policy";
                     "task_list"; "execution_start_to_close_timeout";
                     "input"] ->
              key ∈ WorkflowType._continue_as_new_keys
              /\ is_Some ((overrides ∪ base) !! key)) as Hfive.
    { intros key Hin.
      assert (key ∈ WorkflowType._continue_as_new_keys
              /\ key ∈ dom base) as [Hkeys [b Hb]%elem_of_dom].
      { rewrite Hdom. unfold WorkflowType._continue_as_new_keys.
        repeat (apply elem_of_cons in Hin as [->|Hin]);
          [..|by apply elem_of_nil in Hin];
          (split; [by apply (bool_decide_unpack _)|]);
          rewrite !elem_of_union, !elem_of_singleton; tauto. }
      split; [exact Hkeys|].
      rewrite lookup_union. destruct (overrides !! key); rewrite Hb; eauto. }
    apply set_eq. intros k.
    rewrite elem_of_dom, foldl_copy_key_lookup, lookup_empty.
    rewrite elem_of_union, !elem_of_union, !elem_of_singleton.
    split.
    + destruct (decide (k ∈ WorkflowType._continue_as_new_keys)) as [Hin|Hnin];
        [|by intros [? ?]].
      intros Hsome. unfold WorkflowType._continue_as_new_keys in Hin.
      repeat (apply elem_of_cons in Hin as [->|Hin]);
        [tauto..| |tauto|by apply elem_of_nil in Hin].
      right. rewrite Hv in Hsome.
      destruct (overrides !! "version"); [by apply elem_of_singleton|].
      by destruct Hsome.
    + intros [Hk|Hk].
      * assert (k ∈ ["task_start_to_close_timeout"; "child_policy";
                     "task_list"; "execution_start_to_close_timeout";
                     "input"]) as Hin.
        { rewrite !elem_of_cons. tauto. }
        destruct (Hfive k Hin) as [Hkeys [b Hb]].
        rewrite decide_True by exact Hkeys. rewrite Hb. eauto.
      * destruct (overrides !! "version") as [v|] eqn:Hov;
          [|by apply elem_of_empty in Hk].
        apply elem_of_singleton in Hk as ->.
        rewrite decide_True by (by apply (bool_decide_unpack _)).
        rewrite Hv. eauto.
Qed.

End option_maps.

Section registration.
Context `{Imports}.

(** X10: a [WorkflowType] yields no registration map exactly when it opted
    out; otherwise the map has the eight registration keys, stores the
    domain, name and version as given, and names the worker's task list
    when the descriptor holds the sentinel and the descriptor's own task
    list when it does not. *)
Theorem workflow_registration_options
    (self : WorkflowType.t) (domain worker_task_list : pyval) :
  (WorkflowType.to_registration_options_dict self domain worker_task_list
   = None <-> WorkflowType.skip_registration self = true)
  /\ forall d,
       WorkflowType.to_registration_options_dict self domain worker_task_list
       = Some d ->
       dom d = ({["domain"; "version"; "name"; "default_task_list";
                  "default_child_policy";
                  "default_execution_start_to_close_timeout";
                  "default_task_start_to_close_timeout"; "description"]}
                : gset string)
       /\ d !! "domain" = Some (Val domain)
       /\ (WorkflowType.task_list self = USE_WORKER_TASK_LIST ->
           d !! "default_task_list"
           = Some (Dict {["name" := PStr (str_or_NONE worker_task_list)]}))
       /\ (WorkflowType.task_list self <> USE_WORKER_TASK_LIST ->
           d !! "default_task_list"
           = Some (Dict {["name" :=
                PStr (str_or_NONE (WorkflowType.task_list self))]})).
Proof.
  unfold WorkflowType.to_registration_options_dict.
  destruct (WorkflowType.skip_registration self); split; try done.
  intros d [= <-]. split; [|split; [|split]].
  - rewrite !dom_insert_L, dom_empty_L. by rewrite (right_id_L ∅ (∪)).
  - by simplify_map_eq.
  - intros Hsentinel. rewrite decide_True by exact Hsentinel.
    by simplify_map_eq.
  - intros Hown. rewrite decide_False by exact Hown. by simplify_map_eq.
Qed.

(** X11: the same for an [ActivityType], with its nine registration
    keys. *)
Theorem activity_registration_options
    (self : ActivityType.t) (domain worker_task_list : pyval) :
  (ActivityType.to_registration_options_dict self domain worker_task_list
   = None <-> ActivityType.skip_registration self = true)
  /\ forall d,
       ActivityType.to_registration_options_dict self domain worker_task_list
       = Some d ->
       dom d = ({["domain"; "version"; "name"; "default_task_list";
                  "default_task_heartbeat_timeout";
                  "default_task_schedule_to_start_timeout";
                  "default_task_start_to_close_timeout";
                  "default_task_schedule_to_close_timeout"; "description"]}
                : gset string)
       /\ d !! "domain" = Some (Val domain)
       /\ (ActivityType.task_list self = USE_WORKER_TASK_LIST ->
           d !! "default_task_list"
           = Some (Dict {["name" := PStr (str_or_NONE worker_task_list)]}))
       /\ (ActivityType.task_list self <> USE_WORKER_TASK_LIST ->
           d !! "default_task_list"
           = Some (Dict {["name" :=
                PStr (str_or_NONE (ActivityType.task_list self))]})).
Proof.
  unfold ActivityType.to_registration_options_dict.
  destruct (ActivityType.skip_registration self); split; try done.
  intros d [= <-]. split; [|split; [|split]].
  - rewrite !dom_insert_L, dom_empty_L. by rewrite (right_id_L ∅ (∪)).
  - by simplify_map_eq.
  - intros Hsentinel. rewrite decide_True by exact Hsentinel.
    by simplify_map_eq.
  - intros Hown. rewrite decide_False by exact Hown. by simplify_map_eq.
Qed.

End registration.

(** ** Delegation *)

Section delegation.
Context `{Imports}.

(** X12: inside a Decision context an [ActivityType] call always hands one
    execute-activity request to the decider and returns the decider's
    handle, whether or not the execution has started.  The map it passes
    has the seven activity keys and the keys of the activity overrides; an
    override wins; and without an override the task list is the
    descriptor's own, the sentinel included: no worker task list is
    substituted here. *)
Theorem activity_call_request
    (self : ActivityType.t) (args : list pyval) (kwargs : gmap string pyval)
    (decider : Decider) (workflow : ref) (wo ao : gmap string dval) :
  exists d,
    ActivityType.__call__ self args kwargs
      (Some (DecisionContext decider workflow wo ao))
    = Call (ActivityType._handle_execute_activity decider self d args kwargs)
        (fun future => Done (Return future))
    /\ dom d
       = dom ao
         ∪ ({["activity_type_version"; "activity_type_name"; "task_list";
              "heartbeat_timeout"; "schedule_to_start_timeout";
              "start_to_close_timeout"; "schedule_to_close_timeout"]}
            : gset string)
    /\ (forall key v, ao !! key = Some v -> d !! key = Some v)
    /\ (ao !! "task_list" = None ->
        d !! "task_list"
        = Some (Dict {["name" :=
             PStr (str_or_NONE (ActivityType.task_list self))]})).
Proof.
  exists (ao ∪ ActivityType.to_decision_dict self). split; [|split; [|split]].
  - unfold ActivityType.__call__, update; simpl.
    by rewrite (right_id_L ∅ (∪)).
  - rewrite dom_union_L. unfold ActivityType.to_decision_dict.
    by rewrite !dom_insert_L, dom_empty_L, (right_id_L ∅ (∪)).
  - intros key v Hkey. by apply lookup_union_Some_l.
  - intros Hnone. rewrite lookup_union_r by exact Hnone.
    unfold ActivityType.to_decision_dict. by simplify_map_eq.
Qed.

(** X13: when a started workflow calls its own type, the request handed
    to the decider's continue-as-new operation carries whitelist keys
    only; a whitelisted workflow override passes through; and a
    descriptor that holds the sentinel continues on the decider's task
    list unless the overrides name another.  The activity overrides play
    no part. *)
Theorem workflow_call_continue_as_new_request
    (self : WorkflowType.t) (_class : named) (_instance : ref)
    (args : list pyval) (kwargs : gmap string pyval)
    (decider : Decider) (wo ao : gmap string dval) :
  execution_started decider = true ->
  exists d,
    WorkflowType.__call__ self (_class, _instance) args kwargs
      (Some (DecisionContext decider _instance wo ao))
    = Call (WorkflowType._continue_as_new_workflow_execution decider d)
        (fun r => Done (Return (WorkflowType.returned_object r)))
    /\ (forall key, key ∈ dom d -> key ∈ WorkflowType._continue_as_new_keys)
    /\ (forall key v, key ∈ WorkflowType._continue_as_new_keys ->
          wo !! key = Some v -> d !! key = Some v)
    /\ (WorkflowType.task_list self = USE_WORKER_TASK_LIST ->
        wo !! "task_list" = None ->
        d !! "task_list"
        = Some (Dict {["name" := PStr (str_or_NONE (task_list decider))]})).
Proof.
  intros Hstarted.
  destruct (decision_dict_shape self (args, kwargs) PNone (task_list decider)
              PNone (DecisionContext decider _instance wo ao) wo eq_refl)
    as (base & Hd & _).
  eexists. split; [|split; [|split]].
  - unfold WorkflowType.__call__.
    cbn [get_context mbind prog_mbind prog_bind].
    rewrite Hstarted, decide_True by done.
    unfold WorkflowType.to_continue_as_new_dict. rewrite Hd. reflexivity.
  - intros key [v Hv]%elem_of_dom. rewrite foldl_copy_key_lookup in Hv.
    destruct (decide (key ∈ WorkflowType._continue_as_new_keys)); [done|].
    by rewrite lookup_empty in Hv.
  - intros key v Hkey Hwo. rewrite foldl_copy_key_lookup.
    rewrite decide_True by exact Hkey.
    by rewrite (lookup_union_Some_l wo base key v Hwo).
  - intros Hsentinel Hnone. rewrite foldl_copy_key_lookup.
    rewrite decide_True by (by apply (bool_decide_unpack _)).
    rewrite lookup_union_r by exact Hnone.
    destruct (decision_dict_task_list self (args, kwargs) PNone
                (task_list decider) PNone
                (DecisionContext decider _instance wo ao) wo eq_refl Hnone)
      as (d0 & Hd0 & Htl).
    rewrite Hd in Hd0. injection Hd0 as <-.
    rewrite lookup_union_r in Htl by exact Hnone.
    rewrite Htl. by rewrite decide_True by exact Hsentinel.
Qed.

(** X14: no call operator hands more than one operation to a
    collaborator: each ends at once or right after the reply to its single
    request, for every descriptor, argument and context. *)
Theorem call_delegates_at_most_once
    (workflow_type : WorkflowType.t) (target : named * ref)
    (activity_type : ActivityType.t) (signal_type : SignalType.t)
    (args : list pyval) (kwargs : gmap string pyval)
    (ambient : option Context) :
  at_most_one_call
    (WorkflowType.__call__ workflow_type target args kwargs ambient)
  /\ at_most_one_call
       (ActivityType.__call__ activity_type args kwargs ambient)
  /\ at_most_one_call
       (SignalType.__call__ signal_type args kwargs ambient).
Proof.
  destruct target as [_class _instance]. split; [|split].
  - destruct ambient as [[worker wo|decider workflow wo ao|worker]|];
      cbn; try done.
    + intros [workflow_id run_id]. by eexists.
    + destruct (execution_started decider); [|done].
      destruct (decide (workflow = _instance)); cbn; intros x; by eexists.
  - destruct ambient as [[worker wo|decider workflow wo ao|worker]|];
      cbn; try done.
    intros x. by eexists.
  - unfold SignalType.__call__.
    destruct (SignalType.data_converter signal_type) as [c|v]; [|done].
    destruct ambient as [[worker wo|decider workflow wo ao|worker]|];
      cbn; try done;
      destruct (SignalType.workflow_execution signal_type); cbn; try done;
      intros x; by eexists.
Qed.


End delegation.

(** ** Instances of the properties above *)

Lemma workflow_type_init_outcome_witness :
  (exists self,
     WorkflowType.__init__ (H := examples.imports) (PStr "1.0") (PInt 3600)
       (PStr "tl-B") (PInt 30) (PStr "TERMINATE") (PStr "") (PStr "Order")
       (Converter examples.plain_converter) false = Return self)
  /\ WorkflowType.__init__ (H := examples.imports) (PStr "1.0") (PInt 3600)
       (PStr "tl-B") (PInt 30) (PStr "TERMINATE") (PStr "") (PStr "Order")
       (Other (PInt 5)) false = Raise TypeError.
Proof.
  split.
  - apply (proj1 (workflow_type_init_outcome (H := examples.imports)
                    (PStr "1.0") (PInt 3600) (PStr "tl-B") (PInt 30)
                    (PStr "TERMINATE") (PStr "") (PStr "Order")
                    (Converter examples.plain_converter) false)).
    right. by eexists.
  - destruct (WorkflowType.__init__ (H := examples.imports) (PStr "1.0")
                (PInt 3600) (PStr "tl-B") (PInt 30) (PStr "TERMINATE")
                (PStr "") (PStr "Order") (Other (PInt 5)) false)
      as [self|err] eqn:Hinit; [discriminate Hinit|].
    f_equal.
    exact (proj2 (proj2 (workflow_type_init_outcome (H := examples.imports)
                           (PStr "1.0") (PInt 3600) (PStr "tl-B") (PInt 30)
                           (PStr "TERMINATE") (PStr "") (PStr "Order")
                           (Other (PInt 5)) false)) err Hinit).
Defined.




Lemma decision_dict_override_wins_witness :
  exists d,
    WorkflowType.to_decision_dict (H := examples.imports)
      (examples.workflow_type "Order" "1.0") ([PInt 1], ∅)
      PNone (PStr "tl-A") PNone
      (Some (StartWorkflowContext examples.worker examples.version_override))
    = Return d
    /\ d !! "version" = Some (Val (PStr "2.0")).
Proof.
  exact (decision_dict_override_wins (H := examples.imports)
           (examples.workflow_type "Order" "1.0") ([PInt 1], ∅)
           PNone (PStr "tl-A") PNone
           (StartWorkflowContext examples.worker examples.version_override)
           examples.version_override "version" (Val (PStr "2.0"))
           eq_refl (lookup_singleton_eq _ _)).
Defined.

Lemma decision_dict_key_set_witness :
  exists d,
    WorkflowType.to_decision_dict (H := examples.imports)
      (examples.workflow_type "Order" "1.0") ([PInt 1], ∅)
      (PStr "child-1") (PStr "tl-A") PNone
      (Some (StartWorkflowContext examples.worker examples.version_override))
    = Return d
    /\ dom d
       = dom examples.version_override
         ∪ ({["workflow_type"; "task_list"; "child_policy";
              "execution_start_to_close_timeout";
              "task_start_to_close_timeout"; "input"]} : gset string)
         ∪ {["workflow_id"]}
         ∪ ∅.
Proof.
  exact (decision_dict_key_set (H := examples.imports)
           (examples.workflow_type "Order" "1.0") ([PInt 1], ∅)
           (PStr "child-1") (PStr "tl-A") PNone
           (StartWorkflowContext examples.worker examples.version_override)
           examples.version_override eq_refl).
Defined.

Lemma decision_dict_child_workflow_id_witness :
  exists d,
    WorkflowType.to_decision_dict (H := examples.imports)
      (examples.workflow_type "Order" "1.0") ([PInt 1], ∅)
      (PStr "child-1") (PStr "tl-A") PNone
      (Some (StartWorkflowContext examples.worker examples.version_override))
    = Return d
    /\ d !! "workflow_id" = Some (Val (PStr "child-1")).
Proof.
  assert (examples.version_override !! "workflow_id" = None) as Hnone.
  { by apply lookup_singleton_ne. }
  destruct (decision_dict_child_workflow_id (H := examples.imports)
              (examples.workflow_type "Order" "1.0") ([PInt 1], ∅)
              (PStr "child-1") (PStr "tl-A") PNone
              (StartWorkflowContext examples.worker examples.version_override)
              examples.version_override eq_refl Hnone)
    as (d & Hd & _ & Hchild & _).
  exists d. split; [exact Hd|].
  apply Hchild; [reflexivity|discriminate].
Defined.

Lemma continue_as_new_dict_exact_keys_witness :
  exists d,
    WorkflowType.to_continue_as_new_dict (H := examples.imports)
      (examples.workflow_type "Order" "1.0") ([PInt 1], ∅) (PStr "tl-A")
      (Some (StartWorkflowContext examples.worker examples.version_override))
    = Return d
    /\ d !! "version" = examples.version_override !! "version"
    /\ dom d
       = ({["task_start_to_close_timeout"; "child_policy"; "task_list";
            "execution_start_to_close_timeout"; "input"]} : gset string)
         ∪ (match examples.version_override !! "version" with
            | Some _ => {["version"]}
            | None => ∅
            end).
Proof.
  exact (continue_as_new_dict_exact_keys (H := examples.imports)
           (examples.workflow_type "Order" "1.0") ([PInt 1], ∅) (PStr "tl-A")
           (StartWorkflowContext examples.worker examples.version_override)
           examples.version_override eq_refl).
Defined.

Lemma workflow_registration_options_witness :
  exists d,
    WorkflowType.to_registration_options_dict (H := examples.imports)
      (examples.workflow_type "Order" "1.0") (PStr "prod") (PStr "tl-A")
    = Some d
    /\ d !! "default_task_list" = Some (Dict {["name" := PStr "tl-A"]}).
Proof.
  eexists. split; [reflexivity|].
  apply (proj2 (workflow_registration_options (H := examples.imports)
                  (examples.workflow_type "Order" "1.0")
                  (PStr "prod") (PStr "tl-A")) _ eq_refl).
  reflexivity.
Defined.

Lemma activity_registration_options_witness :
  exists d,
    ActivityType.to_registration_options_dict (H := examples.imports)
      (examples.activity_type (PStr "resize")) (PStr "prod") (PStr "tl-A")
    = Some d
    /\ d !! "default_task_list" = Some (Dict {["name" := PStr "tl-A"]}).
Proof.
  eexists. split; [reflexivity|].
  apply (proj2 (activity_registration_options (H := examples.imports)
                  (examples.activity_type (PStr "resize"))
                  (PStr "prod") (PStr "tl-A")) _ eq_refl).
  reflexivity.
Defined.

Lemma activity_call_request_witness :
  exists d,
    ActivityType.__call__ (H := examples.imports)
      (examples.activity_type (PStr "resize")) [PInt 1] ∅
      (Some (examples.decision_context false))
    = Call (ActivityType._handle_execute_activity (examples.decider false)
              (examples.activity_type (PStr "resize")) d [PInt 1] ∅)
        (fun future => Done (Return future))
    /\ d !! "task_list"
       = Some (Dict {["name" := PStr "USE_WORKER_TASK_LIST"]}).
Proof.
  destruct (activity_call_request (H := examples.imports)
              (examples.activity_type (PStr "resize")) [PInt 1] ∅
              (examples.decider false) (Some 1%nat) ∅ ∅)
    as (d & Hcall & _ & _ & Htl).
  exists d. split; [exact Hcall|].
  apply Htl. apply lookup_empty.
Defined.

Lemma workflow_call_continue_as_new_request_witness :
  exists d,
    WorkflowType.__call__ (H := examples.imports)
      (examples.workflow_type "Order" "1.0")
      (examples.workflow_class, Some 1%nat) [PInt 1] ∅
      (Some (examples.decision_context true))
    = Call (WorkflowType._continue_as_new_workflow_execution
              (examples.decider true) d)
        (fun r => Done (Return (WorkflowType.returned_object r)))
    /\ d !! "task_list" = Some (Dict {["name" := PStr "tl-decider"]}).
Proof.
  destruct (workflow_call_continue_as_new_request (H := examples.imports)
              (examples.workflow_type "Order" "1.0")
              examples.workflow_class (Some 1%nat) [PInt 1] ∅
              (examples.decider true) ∅ ∅ eq_refl)
    as (d & Hcall & _ & _ & Htl).
  exists d. split; [exact Hcall|].
  apply Htl; [reflexivity|apply lookup_empty].
Defined.

Lemma signal_call_without_target_witness :
  SignalType.__call__ (examples.signal None) [PInt 1] ∅
    (Some (ActivityContext examples.worker))
  = Done (Raise (AttributeError "workflow_id")).
Proof.
  apply (signal_call_without_target (PStr "sig") examples.plain_converter
           [PInt 1] ∅ (ActivityContext examples.worker)).
  reflexivity.
Defined.

Lemma signal_call_with_target_witness :
  SignalType.__call__ (examples.signal (Some examples.wf1_run1)) [PInt 1] ∅
    (Some (ActivityContext examples.worker))
  = Call (SignalType._signal_workflow_execution_op examples.worker
            (PStr "prod") (PStr "sig") (PStr "wf-1") (PStr "run-1") "[1]")
      (fun _ => Done (Return PNone)).
Proof.
  apply (signal_call_with_target (PStr "sig") examples.plain_converter
           examples.wf1_run1 [PInt 1] ∅ examples.worker ∅
           (ActivityContext examples.worker)).
  by right.
Defined.

Lemma signal_call_in_decision_witness :
  SignalType.__call__ (examples.signal None) [PInt 1] ∅
    (Some (examples.decision_context true))
  = Done (Raise RuntimeError).
Proof.
  apply (signal_call_in_decision (examples.signal None)
           examples.plain_converter [PInt 1] ∅
           (examples.decider true) (Some 1%nat) ∅ ∅).
  reflexivity.
Defined.
